(** * plot1D_mat: the 1D transport-plan figure of examples/sinkhorn_1D

    A shallow embedding of [examples/sinkhorn_1D/plot_1d_mat.py].  The
    function is a straight-line sequence of calls into numpy and the
    pyplot state machine, so the embedding is a state-and-exception monad
    over an explicit interpreter state: the heap of ndarrays the arguments
    point into, and the current figure with its regions (Axes), the store
    of axis objects those regions refer to, and the current-axes pointer. *)

From Stdlib Require Import ZArith QArith String List Lia DecimalString.
From stdpp Require Import base list.
Import ListNotations.

Local Open Scope string_scope.
Local Open Scope list_scope.
Local Open Scope nat_scope.

(** ** Interpreter state *)

(** Exceptions, by Python class, with their message. *)
Inductive exn : Type :=
| ValueError (msg : string)
| TypeError (msg : string)
| IndexError (msg : string)
| ReferenceError (msg : string).

(** A numpy array: its shape and its flat, row-major data. *)
Record ndarray : Type := mk_ndarray {
  shape : list nat;
  data : list Q
}.

(** References into the heap of arrays. *)
Definition ref : Type := nat.

(** One axis object (an x-axis or a y-axis): orientation, the declared
    view limits when they were set explicitly ([None]: the axis is
    autoscaled), and the tick positions when they were set explicitly.
    Axes that share an axis refer to the same object of the store. *)
Record axis : Type := mk_axis {
  inverted : bool;
  lim : option (Q * Q);
  ticks : option (list Z)
}.

Definition fresh_axis : axis := mk_axis false None None.

(** The cells of a grid a region spans. *)
Record SubplotSpec : Type := mk_SubplotSpec {
  grid : nat * nat;
  rowspan : list nat;
  colspan : list nat
}.

(** A curve: column [xcol] of the array behind [xdata] against column
    [ycol] of the array behind [ydata] (column 0 of a 1D array). *)
Record Line2D : Type := mk_Line2D {
  xdata : ref;
  xcol : nat;
  ydata : ref;
  ycol : nat;
  fmt : string;
  label : string
}.

Record AxesImage : Type := mk_AxesImage {
  image : ref;
  interpolation : string
}.

(** A region of the figure.  [xaxis] and [yaxis] are identifiers of axis
    objects in the store. *)
Record Axes : Type := mk_Axes {
  spec : SubplotSpec;
  xaxis : nat;
  yaxis : nat;
  lines : list Line2D;
  images : list AxesImage;
  ax_title : string;
  axison : bool
}.

Record layout : Type := mk_layout {
  tight : bool;
  wspace : option Q;
  hspace : option Q
}.

Record state : Type := mk_state {
  heap : list ndarray;
  axis_store : list axis;
  fig_axes : list Axes;
  current : option nat;
  fig_layout : layout
}.

Definition set_heap (h : list ndarray) (s : state) : state :=
  mk_state h (axis_store s) (fig_axes s) (current s) (fig_layout s).
Definition set_axis_store (st : list axis) (s : state) : state :=
  mk_state (heap s) st (fig_axes s) (current s) (fig_layout s).
Definition set_fig_axes (l : list Axes) (s : state) : state :=
  mk_state (heap s) (axis_store s) l (current s) (fig_layout s).
Definition set_current (c : option nat) (s : state) : state :=
  mk_state (heap s) (axis_store s) (fig_axes s) c (fig_layout s).
Definition set_fig_layout (l : layout) (s : state) : state :=
  mk_state (heap s) (axis_store s) (fig_axes s) (current s) l.

(** ** The monad: state threaded through, exceptions propagated *)

(** A computation returns a value or raises, and leaves a state either
    way: what was drawn before an exception stays drawn. *)
Definition Py (A : Type) : Type := state -> (exn + A) * state.

Definition ret {A} (a : A) : Py A := fun s => (inr a, s).
Definition raise {A} (e : exn) : Py A := fun s => (inl e, s).
Definition bind {A B} (m : Py A) (k : A -> Py B) : Py B :=
  fun s => match m s with
           | (inl e, s') => (inl e, s')
           | (inr a, s') => k a s'
           end.
Definition gets {A} (f : state -> A) : Py A := fun s => (inr (f s), s).
Definition modify (f : state -> state) : Py unit := fun s => (inr tt, f s).

Declare Scope py_scope.
Delimit Scope py_scope with py.
Notation "x <- m ;; k" := (bind m (fun x => k))
  (at level 100, m at next level, right associativity) : py_scope.
Notation "m ;; k" := (bind m (fun _ => k))
  (at level 100, right associativity) : py_scope.
Local Open Scope py_scope.

(** ** numpy *)

Module np.

(** [np.arange(n)]: a new array [0, 1, ..., n-1] of shape [(n,)]. *)
Definition arange_value (n : nat) : ndarray :=
  mk_ndarray [n] (map (fun i => inject_Z (Z.of_nat i)) (seq 0 n)).

Definition arange (n : nat) : Py ref :=
  fun s => (inr (length (heap s)), set_heap (heap s ++ [arange_value n]) s).

(** [np.atleast_1d] on a shape: a 0-d array becomes one of shape [(1,)]. *)
Definition atleast_1d (sh : list nat) : list nat :=
  match sh with
  | [] => [1]
  | _ => sh
  end.

(** Reading the [shape] attribute of the array behind a reference. *)
Definition shape_of (r : ref) : Py (list nat) :=
  fun s => match heap s !! r with
           | Some a => (inr (shape a), s)
           | None => (inl (ReferenceError "no such array"), s)
           end.

End np.

(** [repr] of a natural number and of a shape tuple: [(3,)], [(3, 2)]. *)
Definition repr_nat (n : nat) : string := NilZero.string_of_uint (Nat.to_uint n).

Fixpoint repr_items (l : list nat) : string :=
  match l with
  | [] => ""
  | [n] => repr_nat n
  | n :: l' => (repr_nat n ++ ", " ++ repr_items l')%string
  end.

Definition repr_shape (sh : list nat) : string :=
  match sh with
  | [] => "()"
  | [n] => ("(" ++ repr_nat n ++ ",)")%string
  | _ => ("(" ++ repr_items sh ++ ")")%string
  end.

(** Tuple unpacking [na, nb = t]. *)
Definition unpack2 (t : list nat) : Py (nat * nat) :=
  match t with
  | [n; m] => ret (n, m)
  | _ :: _ :: _ :: _ => raise (ValueError "too many values to unpack (expected 2)")
  | _ => raise (ValueError "not enough values to unpack (expected 2)")
  end.

(** ** matplotlib.gridspec *)

Module gridspec.

Record GridSpec : Type := mk_GridSpec { nrows : nat; ncols : nat }.

(** A subscript along one dimension: an index [i] or a slice [i:]. *)
Inductive key : Type :=
| Idx (i : nat)
| SliceFrom (i : nat).

Definition normalize (k : key) (size : nat) : exn + list nat :=
  match k with
  | Idx i =>
      if i <? size then inr [i]
      else inl (IndexError "index is out of bounds for GridSpec")
  | SliceFrom i =>
      if i <? size then inr (seq i (size - i))
      else inl (IndexError "GridSpec slice would result in no space allocated for subplot")
  end.

(** [gs[k1, k2]] *)
Definition getitem (gs : GridSpec) (k1 k2 : key) : Py SubplotSpec :=
  match normalize k1 (nrows gs), normalize k2 (ncols gs) with
  | inr rs, inr cs => ret (mk_SubplotSpec (nrows gs, ncols gs) rs cs)
  | inl e, _ => raise e
  | _, inl e => raise e
  end.

End gridspec.

(** ** matplotlib.pyplot

    Every pyplot function acts on the current Axes of the current figure.
    Only what [plot1D_mat] calls is modelled, with the exceptions those
    calls can raise on array arguments. *)

Module pl.

Definition get_axes (h : nat) : Py Axes :=
  fun s => match fig_axes s !! h with
           | Some ax => (inr ax, s)
           | None => (inl (ReferenceError "no such Axes"), s)
           end.

Definition update_axes (h : nat) (f : Axes -> Axes) : Py unit :=
  modify (fun s => set_fig_axes (alter f h (fig_axes s)) s).

Definition update_axis (id : nat) (f : axis -> axis) : Py unit :=
  modify (fun s => set_axis_store (alter f id (axis_store s)) s).

(** A new axis object in the store; its identifier is returned. *)
Definition new_axis : Py nat :=
  fun s => (inr (length (axis_store s)),
            set_axis_store (axis_store s ++ [fresh_axis]) s).

(** The axis a new region uses: the one of the region it shares with,
    or a new one. *)
Definition shared_or_new (share : option nat) (which : Axes -> nat) : Py nat :=
  match share with
  | Some h => ax <- get_axes h ;; ret (which ax)
  | None => new_axis
  end.

(** [pl.subplot(spec, sharex=..., sharey=...)]: a new region on the
    cells of [sp], which becomes the current one.  The GridSpec is built
    anew by every call of [plot1D_mat], so a call never gets back a
    region that is already in the figure; the regions that were there
    are kept as they are. *)
Definition subplot (sp : SubplotSpec) (sharex sharey : option nat) : Py nat :=
  xid <- shared_or_new sharex xaxis ;;
  yid <- shared_or_new sharey yaxis ;;
  h <- gets (fun s => length (fig_axes s)) ;;
  modify (fun s => set_current (Some h)
                     (set_fig_axes (fig_axes s ++ [mk_Axes sp xid yid [] [] "" true]) s)) ;;
  ret h.

(** [pl.gca()]: the current region; one covering the whole figure is
    made when the figure has none. *)
Definition gca : Py nat :=
  c <- gets current ;;
  match c with
  | Some h => ret h
  | None => subplot (mk_SubplotSpec (1, 1) [0] [0]) None None
  end.

(** The length of the first dimension, after [np.atleast_1d]. *)
Definition first_dim (a : ndarray) : nat :=
  match shape a with
  | [] => 1
  | n :: _ => n
  end.

Definition get_array (r : ref) : Py ndarray :=
  fun s => match heap s !! r with
           | Some a => (inr a, s)
           | None => (inl (ReferenceError "no such array"), s)
           end.

(** The number of columns [plot] sees in an array: a 1D array is one
    column. *)
Definition ncols_of (a : ndarray) : nat :=
  match np.atleast_1d (shape a) with
  | _ :: k :: _ => k
  | _ => 1
  end.

Definition first_dimension_error (x y : ndarray) : exn :=
  ValueError ("x and y must have same first dimension, but have shapes "
              ++ repr_shape (np.atleast_1d (shape x)) ++ " and "
              ++ repr_shape (np.atleast_1d (shape y)))%string.

Definition too_many_dimensions_error (x y : ndarray) : exn :=
  ValueError ("x and y can be no greater than 2D, but have shapes "
              ++ repr_shape (np.atleast_1d (shape x)) ++ " and "
              ++ repr_shape (np.atleast_1d (shape y)))%string.

Definition columns_error (x y : ndarray) : exn :=
  ValueError ("x has " ++ repr_nat (ncols_of x) ++ " columns but y has "
              ++ repr_nat (ncols_of y) ++ " columns")%string.

(** The argument check of [plot]: the exception it raises on arrays
    [x] and [y], if any. *)
Definition plot_args_error (x y : ndarray) : option exn :=
  if negb (first_dim x =? first_dim y) then
    Some (first_dimension_error x y)
  else if (2 <? length (shape x)) || (2 <? length (shape y)) then
    Some (too_many_dimensions_error x y)
  else if (1 <? ncols_of x) && (1 <? ncols_of y)
          && negb (ncols_of x =? ncols_of y) then
    Some (columns_error x y)
  else None.

(** The curves one [plot] call draws: one per column, the columns of the
    shorter argument being reused in turn; none when an argument has no
    column. *)
Definition plot_lines (x y : ref) (ax ay : ndarray) (fmt label : string)
    : list Line2D :=
  if (ncols_of ax =? 0) || (ncols_of ay =? 0) then []
  else map (fun j => mk_Line2D x (j mod ncols_of ax) y (j mod ncols_of ay)
                       fmt label)
           (seq 0 (Nat.max (ncols_of ax) (ncols_of ay))).

(** [pl.plot(x, y, fmt, label=...)] *)
Definition plot (x y : ref) (fmt label : string) : Py unit :=
  h <- gca ;;
  ax <- get_array x ;;
  ay <- get_array y ;;
  match plot_args_error ax ay with
  | Some e => raise e
  | None =>
      update_axes h (fun a => mk_Axes (spec a) (xaxis a) (yaxis a)
                                (lines a ++ plot_lines x y ax ay fmt label)
                                (images a) (ax_title a) (axison a))
  end.

Definition set_ticks (l : list Z) (a : axis) : axis :=
  mk_axis (inverted a) (lim a) (Some l).

(** [pl.xticks(l)], [pl.yticks(l)] *)
Definition xticks (l : list Z) : Py unit :=
  h <- gca ;; a <- get_axes h ;; update_axis (xaxis a) (set_ticks l).
Definition yticks (l : list Z) : Py unit :=
  h <- gca ;; a <- get_axes h ;; update_axis (yaxis a) (set_ticks l).

(** [pl.title(s)] *)
Definition title (t : string) : Py unit :=
  h <- gca ;;
  update_axes h (fun a => mk_Axes (spec a) (xaxis a) (yaxis a) (lines a)
                            (images a) t (axison a)).

(** Inverting an axis reverses its direction, and its limits with it. *)
Definition invert (a : axis) : axis :=
  mk_axis (negb (inverted a))
          (match lim a with Some (l, r) => Some (r, l) | None => None end)
          (ticks a).

(** [ax.invert_xaxis()], [ax.invert_yaxis()] *)
Definition invert_xaxis (h : nat) : Py unit :=
  a <- get_axes h ;; update_axis (xaxis a) invert.
Definition invert_yaxis (h : nat) : Py unit :=
  a <- get_axes h ;; update_axis (yaxis a) invert.

(** The limits [imshow] gives an autoscaled axis are the extent of the
    image: x from -0.5 to ncols - 0.5 and, with the default origin
    ['upper'], y from nrows - 0.5 down to -0.5, so that the first row is
    at the top.  The extent of an image without rows is the single point
    -0.5, which is widened to an ascending interval: the axis is then not
    inverted.  An axis whose limits were declared is left as it is. *)
Definition image_xaxis (a : axis) : axis :=
  match lim a with
  | None => mk_axis false None (ticks a)
  | Some _ => a
  end.

Definition top_down (nrows : nat) (a : axis) : axis :=
  match lim a with
  | None => mk_axis (0 <? nrows) None (ticks a)
  | Some _ => a
  end.

(** What [imshow] does to the region [h] and its axes for an image of
    [nrows] rows. *)
Definition show (h : nat) (X : ref) (interp : string) (nrows : nat) : Py unit :=
  a <- get_axes h ;;
  update_axis (xaxis a) image_xaxis ;;
  update_axis (yaxis a) (top_down nrows) ;;
  update_axes h (fun a => mk_Axes (spec a) (xaxis a) (yaxis a) (lines a)
                            (images a ++ [mk_AxesImage X interp])
                            (ax_title a) (axison a)).

(** [pl.imshow(X, interpolation=...)]: the image of a 2D array (or of a
    3D one with 3 or 4 channels). *)
Definition imshow (X : ref) (interp : string) : Py unit :=
  h <- gca ;;
  aX <- get_array X ;;
  match shape aX with
  | [r; _] | [r; _; 3] | [r; _; 4] => show h X interp r
  | _ => raise (TypeError "Invalid shape for image data")
  end.

(** [pl.axis('off')] *)
Definition axis_off : Py unit :=
  h <- gca ;;
  update_axes h (fun a => mk_Axes (spec a) (xaxis a) (yaxis a) (lines a)
                            (images a) (ax_title a) false).

(** The limits kept for a request [(l, r)]: the request itself, unless
    the two bounds are equal; a single point is widened by 5% of its
    magnitude on each side, and the point 0 to (-0.05, 0.05).  (Bounds
    are integers here, far below the magnitude at which two distinct ones
    count as equal.) *)
Definition nonsingular (l r : Z) : Q * Q :=
  if (l =? r)%Z then
    if (l =? 0)%Z then (- (1 # 20), 1 # 20)%Q
    else (Qred (inject_Z l - (1 # 20) * inject_Z (Z.abs l)),
          Qred (inject_Z l + (1 # 20) * inject_Z (Z.abs l)))%Q
  else (inject_Z l, inject_Z r).

Definition set_lim (l r : Z) (a : axis) : axis :=
  mk_axis (r <? l)%Z (Some (nonsingular l r)) (ticks a).

(** [pl.xlim((l, r))] *)
Definition xlim (l r : Z) : Py unit :=
  h <- gca ;; a <- get_axes h ;; update_axis (xaxis a) (set_lim l r).

(** [pl.tight_layout()] *)
Definition tight_layout : Py unit :=
  modify (fun s => set_fig_layout
                     (mk_layout true (wspace (fig_layout s)) (hspace (fig_layout s))) s).

(** [pl.subplots_adjust(wspace=w, hspace=h)] *)
Definition subplots_adjust (w h : Q) : Py unit :=
  modify (fun s => set_fig_layout
                     (mk_layout (tight (fig_layout s)) (Some w) (Some h)) s).

End pl.

(** ** The function *)

Import gridspec.

Definition plot1D_mat (a b M : ref) (title : string) : Py unit :=
  sh <- np.shape_of M ;;
  dims <- unpack2 sh ;;
  let na := fst dims in
  let nb := snd dims in

  let gs := mk_GridSpec 3 3 in

  xa <- np.arange na ;;
  xb <- np.arange nb ;;

  sp1 <- getitem gs (Idx 0) (SliceFrom 1) ;;
  ax1 <- pl.subplot sp1 None None ;;
  pl.plot xb b "r" "Target distribution" ;;
  pl.yticks [] ;;
  pl.title title ;;

  sp2 <- getitem gs (SliceFrom 1) (Idx 0) ;;
  ax2 <- pl.subplot sp2 None None ;;
  pl.plot a xa "b" "Source distribution" ;;
  (h <- pl.gca ;; pl.invert_xaxis h) ;;
  (h <- pl.gca ;; pl.invert_yaxis h) ;;
  pl.xticks [] ;;

  sp3 <- getitem gs (SliceFrom 1) (SliceFrom 1) ;;
  _ <- pl.subplot sp3 (Some ax1) (Some ax2) ;;
  pl.imshow M "nearest" ;;
  pl.axis_off ;;

  pl.xlim 0 (Z.of_nat nb) ;;
  pl.tight_layout ;;
  pl.subplots_adjust 0 (2 # 10).

(** ** The function, block by block

    The same statements, cut where the claims look at the figure half
    way: just before the plot of the target (lines 24-31), just before
    the plot of the source (lines 24-36), and just before the heatmap
    region is made (lines 24-40); [heatmap_and_layout] is the rest
    (lines 42-48). *)

Definition before_target_plot (M : ref) : Py (nat * nat * ref * ref * nat) :=
  sh <- np.shape_of M ;;
  dims <- unpack2 sh ;;
  xa <- np.arange (fst dims) ;;
  xb <- np.arange (snd dims) ;;
  sp1 <- getitem (mk_GridSpec 3 3) (Idx 0) (SliceFrom 1) ;;
  ax1 <- pl.subplot sp1 None None ;;
  ret (fst dims, snd dims, xa, xb, ax1).

Definition before_source_plot (b M : ref) (title : string)
    : Py (nat * nat * ref * ref * nat * nat) :=
  r <- before_target_plot M ;;
  let '(na, nb, xa, xb, ax1) := r in
  pl.plot xb b "r" "Target distribution" ;;
  pl.yticks [] ;;
  pl.title title ;;
  sp2 <- getitem (mk_GridSpec 3 3) (SliceFrom 1) (Idx 0) ;;
  ax2 <- pl.subplot sp2 None None ;;
  ret (na, nb, xa, xb, ax1, ax2).

Definition before_heatmap (a b M : ref) (title : string)
    : Py (nat * nat * nat) :=
  r <- before_source_plot b M title ;;
  let '(na, nb, xa, xb, ax1, ax2) := r in
  pl.plot a xa "b" "Source distribution" ;;
  (h <- pl.gca ;; pl.invert_xaxis h) ;;
  (h <- pl.gca ;; pl.invert_yaxis h) ;;
  pl.xticks [] ;;
  ret (nb, ax1, ax2).

Definition heatmap_and_layout (M : ref) (r : nat * nat * nat) : Py unit :=
  let '(nb, ax1, ax2) := r in
  sp3 <- getitem (mk_GridSpec 3 3) (SliceFrom 1) (SliceFrom 1) ;;
  _ <- pl.subplot sp3 (Some ax1) (Some ax2) ;;
  pl.imshow M "nearest" ;;
  pl.axis_off ;;
  pl.xlim 0 (Z.of_nat nb) ;;
  pl.tight_layout ;;
  pl.subplots_adjust 0 (2 # 10).

(** ** Scenarios *)

(** A run from the empty figure, on the arrays of the scenario
    [source = [0.1, 0.2, 0.7]], [target = [0.5, 0.5]] and a 3 x 2 matrix. *)
Definition empty_figure (h : list ndarray) : state :=
  mk_state h [] [] None (mk_layout false None None).

Definition demo_source : ndarray := mk_ndarray [3] [1 # 10; 2 # 10; 7 # 10]%Q.
Definition demo_target : ndarray := mk_ndarray [2] [5 # 10; 5 # 10]%Q.
Definition demo_matrix : ndarray :=
  mk_ndarray [3; 2] [1 # 10; 0; 1 # 10; 1 # 10; 3 # 10; 4 # 10]%Q.

Definition demo_heap : list ndarray := [demo_source; demo_target; demo_matrix].

Definition demo : (exn + unit) * state :=
  plot1D_mat 0 1 2 "demo" (empty_figure demo_heap).

(** The scenario of mismatched shapes: the same source, of length 3, with
    a matrix of shape (4, 2). *)
Definition tall_matrix : ndarray :=
  mk_ndarray [4; 2] [1 # 10; 0; 1 # 10; 1 # 10; 3 # 10; 4 # 10; 0; 0]%Q.

Definition mismatch_heap : list ndarray := [demo_source; demo_target; tall_matrix].

Definition mismatch : (exn + unit) * state :=
  plot1D_mat 0 1 2 "demo" (empty_figure mismatch_heap).

(** A target of the wrong length: the source, of length 3, passed as the
    target of the 3 x 2 matrix. *)
Definition target_mismatch : (exn + unit) * state :=
  plot1D_mat 0 0 2 "demo" (empty_figure demo_heap).

(** A matrix that is not 2D: the source, of shape (3,), passed as the
    matrix. *)
Definition flat_matrix : (exn + unit) * state :=
  plot1D_mat 0 1 0 "demo" (empty_figure demo_heap).

(** A matrix without rows, of shape (0, 2), with an empty source. *)
Definition no_rows_heap : list ndarray :=
  [mk_ndarray [0] []; demo_target; mk_ndarray [0; 2] []].

Definition no_rows : (exn + unit) * state :=
  plot1D_mat 0 1 2 "demo" (empty_figure no_rows_heap).

(** A matrix without columns, of shape (3, 0), with an empty target. *)
Definition no_cols_heap : list ndarray :=
  [demo_source; mk_ndarray [0] []; mk_ndarray [3; 0] []].

Definition no_cols : (exn + unit) * state :=
  plot1D_mat 0 1 2 "demo" (empty_figure no_cols_heap).

(** ** The state a call leaves, in closed form

    [n], [k] and [m] are the sizes of the heap, of the axis store and of
    the list of regions before the call; [A] and [B] are the arrays behind
    the source and the target. *)
Definition top_spec : SubplotSpec := mk_SubplotSpec (3, 3) [0] [1; 2].
Definition left_spec : SubplotSpec := mk_SubplotSpec (3, 3) [1; 2] [0].
Definition center_spec : SubplotSpec := mk_SubplotSpec (3, 3) [1; 2] [1; 2].

Definition target_curves (s : state) (b : ref) (B : ndarray) (nb : nat)
    : list Line2D :=
  pl.plot_lines (length (heap s) + 1) b (np.arange_value nb) B
    "r" "Target distribution".

Definition source_curves (s : state) (a : ref) (A : ndarray) (na : nat)
    : list Line2D :=
  pl.plot_lines a (length (heap s)) A (np.arange_value na)
    "b" "Source distribution".

Definition final_top (s : state) (b : ref) (B : ndarray) (nb : nat)
    (t : string) : Axes :=
  let k := length (axis_store s) in
  mk_Axes top_spec k (k + 1) (target_curves s b B nb) [] t true.

Definition final_left (s : state) (a : ref) (A : ndarray) (na : nat) : Axes :=
  let k := length (axis_store s) in
  mk_Axes left_spec (k + 2) (k + 3) (source_curves s a A na) [] "" true.

Definition final_center (s : state) (M : ref) : Axes :=
  let k := length (axis_store s) in
  mk_Axes center_spec k (k + 3) [] [mk_AxesImage M "nearest"] "" false.

Definition final_axes (na nb : nat) : list axis :=
  [ mk_axis false (Some (pl.nonsingular 0 (Z.of_nat nb))) None;
    mk_axis false None (Some []);
    mk_axis true None (Some []);
    mk_axis (0 <? na) None None ].

Definition final_state (s : state) (a b M : ref) (t : string)
    (A B : ndarray) (na nb : nat) : state :=
  mk_state
    (heap s ++ [np.arange_value na; np.arange_value nb])
    (axis_store s ++ final_axes na nb)
    (fig_axes s ++
       [final_top s b B nb t; final_left s a A na; final_center s M])
    (Some (length (fig_axes s) + 2))
    (mk_layout true (Some 0%Q) (Some (2 # 10)%Q)).

(** ** The states half way, in closed form *)

(** The top and left regions as [subplot] makes them, before anything is
    drawn in them. *)
Definition empty_top (s : state) : Axes :=
  let k := length (axis_store s) in
  mk_Axes top_spec k (k + 1) [] [] "" true.

Definition empty_left (s : state) : Axes :=
  let k := length (axis_store s) in
  mk_Axes left_spec (k + 2) (k + 3) [] [] "" true.

(** Just before the plot of the target, which is also the state that plot
    leaves when it raises. *)
Definition target_failed_state (s : state) (na nb : nat) : state :=
  mk_state
    (heap s ++ [np.arange_value na; np.arange_value nb])
    (axis_store s ++ [fresh_axis; fresh_axis])
    (fig_axes s ++ [empty_top s])
    (Some (length (fig_axes s)))
    (fig_layout s).

(** Just before the plot of the source, which is also the state that plot
    leaves when it raises. *)
Definition source_failed_state (s : state) (b : ref) (B : ndarray)
    (t : string) (na nb : nat) : state :=
  mk_state
    (heap s ++ [np.arange_value na; np.arange_value nb])
    (axis_store s ++
       [fresh_axis; mk_axis false None (Some []); fresh_axis; fresh_axis])
    (fig_axes s ++ [final_top s b B nb t; empty_left s])
    (Some (length (fig_axes s) + 1))
    (fig_layout s).

(** Just before the heatmap region is made. *)
Definition heatmap_pending_state (s : state) (a b : ref) (A B : ndarray)
    (t : string) (na nb : nat) : state :=
  mk_state
    (heap s ++ [np.arange_value na; np.arange_value nb])
    (axis_store s ++
       [fresh_axis; mk_axis false None (Some []);
        mk_axis true None (Some []); mk_axis true None None])
    (fig_axes s ++ [final_top s b B nb t; final_left s a A na])
    (Some (length (fig_axes s) + 1))
    (fig_layout s).

(** ** Observing the figure *)

(** The [i]-th region a call has added, between the state [s] before it
    and the state [s'] after it. *)
Definition region (s s' : state) (i : nat) : option Axes :=
  fig_axes s' !! (length (fig_axes s) + i).

Definition top_marginal (s s' : state) : option Axes := region s s' 0.
Definition left_marginal (s s' : state) : option Axes := region s s' 1.
Definition center_heatmap (s s' : state) : option Axes := region s s' 2.

(** [ax.get_xlim()] when the limit was declared, and the orientation of
    the two axes of a region. *)
Definition get_xlim (s : state) (ax : Axes) : option (Q * Q) :=
  match axis_store s !! xaxis ax with
  | Some x => lim x
  | None => None
  end.

Definition xaxis_inverted (s : state) (ax : Axes) : option bool :=
  inverted <$> axis_store s !! xaxis ax.

Definition yaxis_inverted (s : state) (ax : Axes) : option bool :=
  inverted <$> axis_store s !! yaxis ax.

(** The grid cells (row, column) a region covers. *)
Definition cells (sp : SubplotSpec) : list (nat * nat) :=
  list_prod (rowspan sp) (colspan sp).

(** The tick positions of the two axes of a region: [None] when they are
    left to the locator, [Some []] when they are suppressed. *)
Definition get_xticks (s : state) (ax : Axes) : option (option (list Z)) :=
  ticks <$> axis_store s !! xaxis ax.

Definition get_yticks (s : state) (ax : Axes) : option (option (list Z)) :=
  ticks <$> axis_store s !! yaxis ax.

(** The array [x] is the index array 0, 1, ..., n-1 of shape (n,). *)
Definition is_index_array (n : nat) (x : ndarray) : Prop :=
  shape x = [n] /\
  forall i, i < n -> data x !! i = Some (inject_Z (Z.of_nat i)).

(** The call that left the result [r] got as far as the backend's plot
    of the target (line 32), resp. of the source (line 37): the statements
    before it returned, reaching a state [s0]; the plot, called there,
    raised [e]; and the state the plot left is the state the whole call
    left. *)
Definition raised_at_target_plot (s : state) (b M : ref) (e : exn)
    (r : (exn + unit) * state) : Prop :=
  exists (na nb : nat) (xa xb : ref) (ax1 : nat) (s0 : state),
    before_target_plot M s = (inr (na, nb, xa, xb, ax1), s0) /\
    pl.plot xb b "r" "Target distribution" s0 = (inl e, snd r).

Definition raised_at_source_plot (s : state) (a b M : ref) (t : string)
    (e : exn) (r : (exn + unit) * state) : Prop :=
  exists (na nb : nat) (xa xb : ref) (ax1 ax2 : nat) (s0 : state),
    before_source_plot b M t s = (inr (na, nb, xa, xb, ax1, ax2), s0) /\
    pl.plot a xa "b" "Source distribution" s0 = (inl e, snd r).

(** A call that raised [e] after it had built its two index arrays. *)
Definition raised_with_indices (s : state) (na nb : nat) (e : exn)
    (r : (exn + unit) * state) : Prop :=
  fst r = inl e /\
  heap (snd r) = heap s ++ [np.arange_value na; np.arange_value nb].

(** A computation only ever adds arrays to the heap: the arrays that were
    there stay as they were, whether it returns or raises. *)
Definition heap_grows {A : Type} (m : Py A) : Prop :=
  forall s, exists k, heap (snd (m s)) = heap s ++ k.

(** ** Lists grown at the end *)

Section snoc.
Context {A : Type}.
Implicit Types (l k : list A) (f : A -> A).

Lemma lookup_app_length l k : (l ++ k) !! length l = k !! 0.
Proof. rewrite lookup_app_r by lia. by rewrite Nat.sub_diag. Qed.

Lemma lookup_app_length_add l k i : (l ++ k) !! (length l + i) = k !! i.
Proof. rewrite lookup_app_r by lia. f_equal. lia. Qed.

Lemma alter_app_length f l k : alter f (length l) (l ++ k) = l ++ alter f 0 k.
Proof.
  induction l as [|x l IH]; [done|]. cbn. f_equal. exact IH.
Qed.

Lemma alter_app_length_add f l k i :
  alter f (length l + i) (l ++ k) = l ++ alter f i k.
Proof.
  induction l as [|x l IH]; [done|]. cbn. f_equal. exact IH.
Qed.
End snoc.

(** ** Running the function *)

Lemma of_nat_ltb_0 (n : nat) : (Z.of_nat n <? 0)%Z = false.
Proof. apply Z.ltb_ge. lia. Qed.

Ltac run_step :=
  first
    [ rewrite lookup_app_length
    | rewrite lookup_app_length_add
    | rewrite alter_app_length
    | rewrite alter_app_length_add
    | progress rewrite <- app_assoc
    | progress rewrite length_app
    | progress cbv beta iota
    | progress cbn [app length lookup list_lookup alter list_alter
                    xaxis yaxis spec lines images ax_title axison] ].

Ltac run_unfold :=
  cbv [before_heatmap before_source_plot before_target_plot heatmap_and_layout
       bind np.shape_of unpack2 ret raise np.arange getitem normalize gets modify
       pl.subplot pl.shared_or_new pl.new_axis pl.plot pl.gca pl.get_array
       pl.yticks pl.xticks pl.title pl.get_axes pl.update_axes pl.update_axis
       pl.invert_xaxis pl.invert_yaxis pl.imshow pl.show pl.axis_off pl.xlim
       pl.tight_layout pl.subplots_adjust
       set_heap set_axis_store set_fig_axes set_current set_fig_layout
       heap axis_store fig_axes current fig_layout nrows ncols fst snd];
  change (0 <? 3) with true; change (1 <? 3) with true; cbn [Nat.sub seq].

Ltac run_axes :=
  unfold pl.set_lim, pl.set_ticks, pl.invert, pl.top_down, pl.image_xaxis,
    fresh_axis;
  cbn -[Z.ltb Z.of_nat Nat.ltb pl.nonsingular pl.plot_lines];
  rewrite ?of_nat_ltb_0.

(** What a call does, on arrays [A], [B] and a 2D array [X] of shape
    [(na, nb)]: it fails with the exception of the first [plot] whose
    arguments disagree, and otherwise returns [None] and leaves
    [final_state]. *)
Lemma plot1D_mat_spec (s : state) (a b M : ref) (t : string)
    (A B X : ndarray) (na nb : nat) :
  heap s !! a = Some A -> heap s !! b = Some B -> heap s !! M = Some X ->
  shape X = [na; nb] ->
  match pl.plot_args_error (np.arange_value nb) B with
  | Some e => raised_with_indices s na nb e (plot1D_mat a b M t s)
  | None =>
      match pl.plot_args_error A (np.arange_value na) with
      | Some e => raised_with_indices s na nb e (plot1D_mat a b M t s)
      | None =>
          plot1D_mat a b M t s = (inr tt, final_state s a b M t A B na nb)
      end
  end.
Proof.
  intros Ha Hb HM HX.
  destruct s as [H St Ax cur lay]. cbn in Ha, Hb, HM.
  unfold plot1D_mat, final_state, raised_with_indices.
  run_unfold. rewrite HM, HX.
  repeat run_step.
  rewrite (lookup_app_l_Some _ _ _ _ Hb).
  destruct (pl.plot_args_error (np.arange_value nb) B) as [e|]; [by split|].
  repeat run_step.
  rewrite (lookup_app_l_Some _ _ _ _ Ha).
  repeat run_step.
  destruct (pl.plot_args_error A (np.arange_value na)) as [e|]; [by split|].
  repeat run_step.
  rewrite (lookup_app_l_Some _ _ _ _ HM), HX.
  repeat run_step.
  run_axes. reflexivity.
Qed.

Lemma plot_args_index_l (n : nat) (B : ndarray) :
  shape B = [n] -> pl.plot_args_error (np.arange_value n) B = None.
Proof.
  intros HB. unfold pl.plot_args_error, pl.first_dim, pl.ncols_of.
  rewrite HB. cbn. by rewrite Nat.eqb_refl.
Qed.

Lemma plot_args_index_r (n : nat) (A : ndarray) :
  shape A = [n] -> pl.plot_args_error A (np.arange_value n) = None.
Proof.
  intros HA. unfold pl.plot_args_error, pl.first_dim, pl.ncols_of.
  rewrite HA. cbn. by rewrite Nat.eqb_refl.
Qed.

(** A call that returns has left [final_state]. *)
Lemma plot1D_mat_returns (s s' : state) (a b M : ref) (t : string)
    (A B X : ndarray) (na nb : nat) (u : unit) :
  heap s !! a = Some A -> heap s !! b = Some B -> heap s !! M = Some X ->
  shape X = [na; nb] ->
  plot1D_mat a b M t s = (inr u, s') ->
  s' = final_state s a b M t A B na nb.
Proof.
  intros Ha Hb HM HX Hrun.
  pose proof (plot1D_mat_spec s a b M t A B X na nb Ha Hb HM HX) as Hspec.
  rewrite Hrun in Hspec. unfold raised_with_indices in Hspec.
  destruct (pl.plot_args_error (np.arange_value nb) B); [by destruct Hspec|].
  destruct (pl.plot_args_error A (np.arange_value na)); [by destruct Hspec|].
  congruence.
Qed.

(** A call that returns has passed both argument checks. *)
Lemma plot1D_mat_returns_checked (s s' : state) (a b M : ref) (t : string)
    (A B X : ndarray) (na nb : nat) (u : unit) :
  heap s !! a = Some A -> heap s !! b = Some B -> heap s !! M = Some X ->
  shape X = [na; nb] ->
  plot1D_mat a b M t s = (inr u, s') ->
  pl.plot_args_error (np.arange_value nb) B = None /\
  pl.plot_args_error A (np.arange_value na) = None.
Proof.
  intros Ha Hb HM HX Hrun.
  pose proof (plot1D_mat_spec s a b M t A B X na nb Ha Hb HM HX) as Hspec.
  rewrite Hrun in Hspec. unfold raised_with_indices in Hspec.
  destruct (pl.plot_args_error (np.arange_value nb) B); [by destruct Hspec|].
  destruct (pl.plot_args_error A (np.arange_value na)); [by destruct Hspec|].
  done.
Qed.

(** ** The function, block by block *)

Lemma bind_assoc_at {A B C} (m : Py A) (k : A -> Py B) (h : B -> Py C) s :
  bind (bind m k) h s = bind m (fun x => bind (k x) h) s.
Proof. unfold bind. by destruct (m s) as [[e|x] s1]. Qed.

Lemma bind_ret_at {A B} (x : A) (k : A -> Py B) s : bind (ret x) k s = k x s.
Proof. reflexivity. Qed.

Lemma bind_ext_at {A B} (m : Py A) (k k' : A -> Py B) s :
  (forall x s', k x s' = k' x s') -> bind m k s = bind m k' s.
Proof. intros Hk. unfold bind. destruct (m s) as [[e|x] s1]; [done|apply Hk]. Qed.

Lemma plot1D_mat_blocks (a b M : ref) (t : string) (s : state) :
  plot1D_mat a b M t s =
    bind (before_heatmap a b M t) (heatmap_and_layout M) s.
Proof.
  unfold plot1D_mat, before_heatmap, before_source_plot, before_target_plot,
    heatmap_and_layout.
  repeat first
    [ reflexivity
    | rewrite bind_assoc_at
    | rewrite bind_ret_at
    | progress cbv beta iota zeta
    | apply bind_ext_at; intros ? ? ].
Qed.

(** The states the blocks reach. *)
Lemma before_target_plot_run (s : state) (M : ref) (X : ndarray) (na nb : nat) :
  heap s !! M = Some X -> shape X = [na; nb] ->
  before_target_plot M s =
    (inr (na, nb, length (heap s), length (heap s) + 1, length (fig_axes s)),
     target_failed_state s na nb).
Proof.
  intros HM HX. destruct s as [H St Ax cur lay]. cbn in HM.
  unfold target_failed_state. run_unfold. rewrite HM, HX.
  repeat run_step. reflexivity.
Qed.

Lemma before_source_plot_run (s : state) (b M : ref) (t : string)
    (B X : ndarray) (na nb : nat) :
  heap s !! b = Some B -> heap s !! M = Some X -> shape X = [na; nb] ->
  pl.plot_args_error (np.arange_value nb) B = None ->
  before_source_plot b M t s =
    (inr (na, nb, length (heap s), length (heap s) + 1,
          length (fig_axes s), length (fig_axes s) + 1),
     source_failed_state s b B t na nb).
Proof.
  intros Hb HM HX HB. destruct s as [H St Ax cur lay]. cbn in Hb, HM.
  unfold source_failed_state. run_unfold. rewrite HM, HX.
  repeat run_step.
  rewrite (lookup_app_l_Some _ _ _ _ Hb), HB.
  repeat run_step. run_axes. reflexivity.
Qed.

Lemma before_heatmap_run (s : state) (a b M : ref) (t : string)
    (A B X : ndarray) (na nb : nat) :
  heap s !! a = Some A -> heap s !! b = Some B -> heap s !! M = Some X ->
  shape X = [na; nb] ->
  pl.plot_args_error (np.arange_value nb) B = None ->
  pl.plot_args_error A (np.arange_value na) = None ->
  before_heatmap a b M t s =
    (inr (nb, length (fig_axes s), length (fig_axes s) + 1),
     heatmap_pending_state s a b A B t na nb).
Proof.
  intros Ha Hb HM HX HB HA. destruct s as [H St Ax cur lay]. cbn in Ha, Hb, HM.
  unfold heatmap_pending_state. run_unfold. rewrite HM, HX.
  repeat run_step.
  rewrite (lookup_app_l_Some _ _ _ _ Hb), HB.
  repeat run_step.
  rewrite (lookup_app_l_Some _ _ _ _ Ha).
  repeat run_step. rewrite HA.
  repeat run_step. run_axes. reflexivity.
Qed.

(** [plot] in a figure with a current region: when the argument check
    fails it raises that exception and leaves the state as it found it. *)
Lemma plot_raises_here (s0 : state) (x y : ref) (f l : string)
    (ax ay : ndarray) (h : nat) (e : exn) :
  current s0 = Some h -> heap s0 !! x = Some ax -> heap s0 !! y = Some ay ->
  pl.plot_args_error ax ay = Some e ->
  pl.plot x y f l s0 = (inl e, s0).
Proof.
  intros Hc Hx Hy He. unfold pl.plot.
  cbv [bind pl.gca gets pl.get_array ret raise]. by rewrite Hc, Hx, Hy, He.
Qed.

(** ** Calls that raise *)

(** What a raising call leaves behind, on arrays [A], [B] and a 2D array
    [X] of shape [(na, nb)]. *)
Lemma plot1D_mat_raises_spec (s : state) (a b M : ref) (t : string)
    (A B X : ndarray) (na nb : nat) :
  heap s !! a = Some A -> heap s !! b = Some B -> heap s !! M = Some X ->
  shape X = [na; nb] ->
  match pl.plot_args_error (np.arange_value nb) B with
  | Some e => plot1D_mat a b M t s = (inl e, target_failed_state s na nb)
  | None =>
      match pl.plot_args_error A (np.arange_value na) with
      | Some e =>
          plot1D_mat a b M t s = (inl e, source_failed_state s b B t na nb)
      | None => True
      end
  end.
Proof.
  intros Ha Hb HM HX.
  destruct s as [H St Ax cur lay]. cbn in Ha, Hb, HM.
  unfold plot1D_mat, target_failed_state, source_failed_state.
  run_unfold. rewrite HM, HX.
  repeat run_step.
  rewrite (lookup_app_l_Some _ _ _ _ Hb).
  destruct (pl.plot_args_error (np.arange_value nb) B) as [e|]; [reflexivity|].
  repeat run_step.
  rewrite (lookup_app_l_Some _ _ _ _ Ha).
  repeat run_step.
  destruct (pl.plot_args_error A (np.arange_value na)) as [e|]; [|exact I].
  run_axes. reflexivity.
Qed.

Lemma unpack_shape_raises (s : state) (a b M : ref) (t : string)
    (X : ndarray) :
  heap s !! M = Some X -> length (shape X) <> 2 ->
  exists msg, plot1D_mat a b M t s = (inl (ValueError msg), s).
Proof.
  intros HM Hnd. unfold plot1D_mat.
  cbv [bind np.shape_of]. rewrite HM.
  destruct (shape X) as [|n1 [|n2 [|n3 sh]]]; try (by destruct Hnd);
    cbn; by eexists.
Qed.

(** ** The regions and axes of [final_state] *)

Section final.
Variables (s : state) (a b M : ref) (t : string) (A B : ndarray) (na nb : nat).

Let s' := final_state s a b M t A B na nb.

Lemma final_top_marginal : top_marginal s s' = Some (final_top s b B nb t).
Proof.
  unfold top_marginal, region, s', final_state. cbn [fig_axes].
  by rewrite lookup_app_length_add.
Qed.

Lemma final_left_marginal : left_marginal s s' = Some (final_left s a A na).
Proof.
  unfold left_marginal, region, s', final_state. cbn [fig_axes].
  by rewrite lookup_app_length_add.
Qed.

Lemma final_center_heatmap : center_heatmap s s' = Some (final_center s M).
Proof.
  unfold center_heatmap, region, s', final_state. cbn [fig_axes].
  by rewrite lookup_app_length_add.
Qed.

Lemma final_axis_add (i : nat) :
  axis_store s' !! (length (axis_store s) + i) = final_axes na nb !! i.
Proof. unfold s', final_state. cbn [axis_store]. apply lookup_app_length_add. Qed.

Lemma final_axis_0 :
  axis_store s' !! length (axis_store s) = final_axes na nb !! 0.
Proof. unfold s', final_state. cbn [axis_store]. apply lookup_app_length. Qed.
End final.

Lemma nonsingular_0_pos (n : nat) :
  1 <= n -> pl.nonsingular 0 (Z.of_nat n) = (0%Q, inject_Z (Z.of_nat n)).
Proof.
  intros Hn. unfold pl.nonsingular.
  destruct (Z.eqb_spec 0 (Z.of_nat n)) as [H0|_]; [lia|reflexivity].
Qed.

Lemma ltb_0_pos (n : nat) : 1 <= n -> (0 <? n) = true.
Proof. intros Hn. by apply Nat.ltb_lt. Qed.

(** The curves of one [plot] call all draw the two arrays it was given. *)
Lemma plot_lines_data (x y : ref) (ax ay : ndarray) (f l : string) :
  Forall (fun c => xdata c = x /\ ydata c = y /\ fmt c = f /\ label c = l)
         (pl.plot_lines x y ax ay f l).
Proof.
  unfold pl.plot_lines.
  destruct ((pl.ncols_of ax =? 0) || (pl.ncols_of ay =? 0)); [constructor|].
  apply Forall_fmap, Forall_forall. by intros j _.
Qed.

(** Two 1D arrays give one curve. *)
Lemma plot_lines_1d (x y : ref) (ax ay : ndarray) (f l : string) (n m : nat) :
  shape ax = [n] -> shape ay = [m] ->
  pl.plot_lines x y ax ay f l = [mk_Line2D x 0 y 0 f l].
Proof.
  intros Hx Hy. unfold pl.plot_lines, pl.ncols_of. by rewrite Hx, Hy.
Qed.

Lemma arange_value_lookup (n i : nat) :
  i < n -> data (np.arange_value n) !! i = Some (inject_Z (Z.of_nat i)).
Proof.
  intros Hi. unfold np.arange_value. cbn [data].
  rewrite list_lookup_fmap, lookup_seq_lt by exact Hi. reflexivity.
Qed.

Lemma arange_is_index_array (n : nat) : is_index_array n (np.arange_value n).
Proof. split; [reflexivity|]. intros i. apply arange_value_lookup. Qed.

(** ** The call on well-shaped arguments *)

(** C1: plot1D_mat called with a source of length na, a target of length
    nb and a matrix of shape (na, nb), na, nb >= 1, returns (None) without
    raising. *)
Theorem plot1D_mat_completes (s : state) (a b M : ref) (t : string)
    (A B X : ndarray) (na nb : nat) :
  heap s !! a = Some A -> heap s !! b = Some B -> heap s !! M = Some X ->
  shape A = [na] -> shape B = [nb] -> shape X = [na; nb] ->
  1 <= na -> 1 <= nb ->
  exists s', plot1D_mat a b M t s = (inr tt, s').
Proof.
  intros Ha Hb HM HA HB HX _ _.
  pose proof (plot1D_mat_spec s a b M t A B X na nb Ha Hb HM HX) as Hspec.
  rewrite (plot_args_index_l nb B HB), (plot_args_index_r na A HA) in Hspec.
  eexists. exact Hspec.
Qed.

Lemma plot1D_mat_completes_demo :
  exists s', plot1D_mat 0 1 2 "demo" (empty_figure demo_heap) = (inr tt, s').
Proof.
  apply (plot1D_mat_completes (empty_figure demo_heap) 0 1 2 "demo"
           demo_source demo_target demo_matrix 3 2); try reflexivity; lia.
Defined.

(** ** The figure after a call that returned *)

Section returned.
Variables (s s' : state) (a b M : ref) (t : string).
Variables (A B X : ndarray) (na nb : nat).
Hypothesis Ha : heap s !! a = Some A.
Hypothesis Hb : heap s !! b = Some B.
Hypothesis HM : heap s !! M = Some X.
Hypothesis HX : shape X = [na; nb].
Hypothesis Hrun : plot1D_mat a b M t s = (inr tt, s').

Lemma returned_final : s' = final_state s a b M t A B na nb.
Proof. exact (plot1D_mat_returns s s' a b M t A B X na nb tt Ha Hb HM HX Hrun). Qed.

Lemma returned_checked :
  pl.plot_args_error (np.arange_value nb) B = None /\
  pl.plot_args_error A (np.arange_value na) = None.
Proof.
  exact (plot1D_mat_returns_checked s s' a b M t A B X na nb tt Ha Hb HM HX Hrun).
Qed.

(** C3: after a call that returned, the top marginal and the center
    heatmap refer to the same x-axis object, and the left marginal and
    the center heatmap to the same y-axis object (both objects live in
    the axis store). *)
Theorem regions_share_axes :
  exists top left center : Axes,
    top_marginal s s' = Some top /\
    left_marginal s s' = Some left /\
    center_heatmap s s' = Some center /\
    xaxis top = xaxis center /\
    yaxis left = yaxis center /\
    is_Some (axis_store s' !! xaxis center) /\
    is_Some (axis_store s' !! yaxis center).
Proof.
  rewrite returned_final.
  exists (final_top s b B nb t), (final_left s a A na), (final_center s M).
  split; [apply final_top_marginal|].
  split; [apply final_left_marginal|].
  split; [apply final_center_heatmap|].
  split; [reflexivity|]. split; [reflexivity|].
  cbn [final_center xaxis yaxis].
  rewrite final_axis_0, final_axis_add. split; by eexists.
Qed.

(** C4: after a call that returned, on a matrix of nb columns, nb >= 1,
    the declared x-limit of the center heatmap is exactly (0, nb). *)
Theorem heatmap_xlim :
  1 <= nb ->
  exists center : Axes,
    center_heatmap s s' = Some center /\
    get_xlim s' center = Some (0%Q, inject_Z (Z.of_nat nb)).
Proof.
  intros Hnb. rewrite returned_final. exists (final_center s M).
  split; [apply final_center_heatmap|].
  unfold get_xlim. cbn [final_center xaxis].
  rewrite final_axis_0. cbn. by rewrite nonsingular_0_pos.
Qed.

(** C5: after a call that returned on a matrix with at least
    one row, the x-axis and the y-axis of the left marginal are both
    inverted, whatever the data of the source array. *)
Theorem left_marginal_inverted :
  1 <= na ->
  exists left : Axes,
    left_marginal s s' = Some left /\
    xaxis_inverted s' left = Some true /\
    yaxis_inverted s' left = Some true.
Proof.
  intros Hna. rewrite returned_final. exists (final_left s a A na).
  split; [apply final_left_marginal|].
  unfold xaxis_inverted, yaxis_inverted. cbn [final_left xaxis yaxis].
  rewrite !final_axis_add. unfold final_axes. by rewrite ltb_0_pos.
Qed.

(** C6: for na, nb >= 1, a call that returned has added exactly three
    regions of a 3x3 grid: the top marginal on row 0, columns 1-2, the
    left marginal on rows 1-2, column 0, and the center heatmap on rows
    1-2, columns 1-2. *)
Theorem three_regions :
  1 <= na -> 1 <= nb ->
  exists top left center : Axes,
    fig_axes s' = fig_axes s ++ [top; left; center] /\
    spec top = mk_SubplotSpec (3, 3) [0] [1; 2] /\
    spec left = mk_SubplotSpec (3, 3) [1; 2] [0] /\
    spec center = mk_SubplotSpec (3, 3) [1; 2] [1; 2] /\
    top_marginal s s' = Some top /\
    left_marginal s s' = Some left /\
    center_heatmap s s' = Some center.
Proof.
  intros _ _. rewrite returned_final.
  exists (final_top s b B nb t), (final_left s a A na), (final_center s M).
  split; [reflexivity|]. do 3 (split; [reflexivity|]).
  split; [apply final_top_marginal|].
  split; [apply final_left_marginal|apply final_center_heatmap].
Qed.

(** C9: on a matrix with at least one row, the y-axis of the
    center heatmap is inverted after a call that returned.  Just before
    the heatmap region is made (two regions added, the statements of
    lines 24-40 run) the y-axis of the left marginal is already inverted;
    the heatmap is then made on that same axis object, holds the matrix,
    and the axis is inverted at the end: row 0 is at the top. *)
Theorem heatmap_yaxis_inverted :
  1 <= na ->
  exists (mid : state) (r : nat * nat * nat) (left center : Axes),
    before_heatmap a b M t s = (inr r, mid) /\
    heatmap_and_layout M r mid = (inr tt, s') /\
    fig_axes mid = fig_axes s ++ [final_top s b B nb t; left] /\
    yaxis_inverted mid left = Some true /\
    left_marginal s s' = Some left /\
    center_heatmap s s' = Some center /\
    yaxis center = yaxis left /\
    yaxis_inverted s' left = Some true /\
    yaxis_inverted s' center = Some true /\
    images center = [mk_AxesImage M "nearest"].
Proof.
  intros Hna. destruct returned_checked as [HB HA].
  pose proof (before_heatmap_run s a b M t A B X na nb Ha Hb HM HX HB HA) as Hmid.
  pose proof (plot1D_mat_blocks a b M t s) as Hblocks.
  unfold bind in Hblocks. rewrite Hmid, Hrun in Hblocks.
  exists (heatmap_pending_state s a b A B t na nb),
    (nb, length (fig_axes s), length (fig_axes s) + 1),
    (final_left s a A na), (final_center s M).
  split; [exact Hmid|]. split; [by symmetry|].
  split; [reflexivity|].
  split.
  { unfold yaxis_inverted, heatmap_pending_state.
    cbn [axis_store final_left yaxis]. by rewrite lookup_app_length_add. }
  rewrite returned_final.
  split; [apply final_left_marginal|].
  split; [apply final_center_heatmap|].
  split; [reflexivity|].
  unfold yaxis_inverted. cbn [final_left final_center yaxis].
  rewrite !final_axis_add. unfold final_axes. by rewrite ltb_0_pos.
Qed.

(** C10: after a call that returned, on a matrix of nb columns,
    nb >= 1, the x-limit of the top marginal is (0, nb) too: its x-axis is
    the object the heatmap's limit was set on, while every curve of the
    target is drawn against the index array 0, ..., nb-1. *)
Theorem top_marginal_xlim :
  1 <= nb ->
  exists top center : Axes,
    top_marginal s s' = Some top /\
    center_heatmap s s' = Some center /\
    xaxis top = xaxis center /\
    get_xlim s' top = Some (0%Q, inject_Z (Z.of_nat nb)) /\
    Forall (fun curve =>
              exists xb, heap s' !! xdata curve = Some xb /\
                         is_index_array nb xb)
           (lines top).
Proof.
  intros Hnb. rewrite returned_final.
  exists (final_top s b B nb t), (final_center s M).
  split; [apply final_top_marginal|].
  split; [apply final_center_heatmap|].
  split; [reflexivity|].
  split.
  { unfold get_xlim. cbn [final_top xaxis].
    rewrite final_axis_0. cbn. by rewrite nonsingular_0_pos. }
  cbn [final_top lines]. unfold target_curves.
  eapply Forall_impl; [apply plot_lines_data|].
  intros c (Hx & _). exists (np.arange_value nb). rewrite Hx.
  split; [|apply arange_is_index_array].
  unfold final_state. cbn [heap]. by rewrite lookup_app_length_add.
Qed.
End returned.

(** ** The index arrays and the exceptions *)

(** C2: na and nb are the row and column counts of the matrix, whatever
    the source and target arrays are: on a matrix of shape (na, nb) every
    call, returning or raising, has built its index arrays as arange(na)
    and arange(nb), for arbitrary arrays A and B behind a and b. *)
Theorem dims_from_matrix_shape (s : state) (a b M : ref) (t : string)
    (A B X : ndarray) (na nb : nat) :
  heap s !! a = Some A -> heap s !! b = Some B -> heap s !! M = Some X ->
  shape X = [na; nb] ->
  heap (snd (plot1D_mat a b M t s)) =
    heap s ++ [np.arange_value na; np.arange_value nb].
Proof.
  intros Ha Hb HM HX.
  pose proof (plot1D_mat_spec s a b M t A B X na nb Ha Hb HM HX) as Hspec.
  destruct (pl.plot_args_error (np.arange_value nb) B); [apply Hspec|].
  destruct (pl.plot_args_error A (np.arange_value na)); [apply Hspec|].
  by rewrite Hspec.
Qed.

Lemma first_dimension_differs (x y : ndarray) (n m : nat) :
  shape x = [n] -> shape y = [m] -> n <> m ->
  pl.plot_args_error x y = Some (pl.first_dimension_error x y).
Proof.
  intros Hx Hy Hne. unfold pl.plot_args_error, pl.first_dim.
  rewrite Hx, Hy. by destruct (Nat.eqb_spec n m).
Qed.

(** C7: on a two-dimensional matrix the function raises nothing
    of its own.  Whatever such a call raises was raised by the backend's
    plot of the target or of the source, called in the state the
    statements before it had reached, and the state that plot left is the
    state the call leaves: the exception is passed on as it is and nothing
    is done after it.  With a 1D source of length la and a 1D target of
    length lb that do not match the matrix, the call does raise, the
    backend's ValueError about the first dimension: of the target when it
    is the target that does not fit, else of the source. *)
Theorem errors_come_from_backend (s : state) (a b M : ref) (t : string)
    (A B X : ndarray) (na nb : nat) :
  heap s !! a = Some A -> heap s !! b = Some B -> heap s !! M = Some X ->
  shape X = [na; nb] ->
  (forall e, fst (plot1D_mat a b M t s) = inl e ->
     raised_at_target_plot s b M e (plot1D_mat a b M t s) \/
     raised_at_source_plot s a b M t e (plot1D_mat a b M t s)) /\
  (forall la lb, shape A = [la] -> shape B = [lb] -> la <> na \/ lb <> nb ->
     fst (plot1D_mat a b M t s) =
       inl (if lb =? nb
            then pl.first_dimension_error A (np.arange_value na)
            else pl.first_dimension_error (np.arange_value nb) B)).
Proof.
  intros Ha Hb HM HX.
  pose proof (plot1D_mat_spec s a b M t A B X na nb Ha Hb HM HX) as Hspec.
  pose proof (plot1D_mat_raises_spec s a b M t A B X na nb Ha Hb HM HX) as Hr.
  assert (Hxa : forall s0, heap s0 = heap s ++ [np.arange_value na; np.arange_value nb] ->
                  heap s0 !! length (heap s) = Some (np.arange_value na) /\
                  heap s0 !! (length (heap s) + 1) = Some (np.arange_value nb) /\
                  heap s0 !! a = Some A /\ heap s0 !! b = Some B).
  { intros s0 ->. rewrite lookup_app_length, lookup_app_length_add.
    repeat split; try done; by apply lookup_app_l_Some. }
  split.
  - intros e He.
    destruct (pl.plot_args_error (np.arange_value nb) B) as [e1|] eqn:EB.
    { left. rewrite Hr in He |- *. injection He as <-.
      exists na, nb, (length (heap s)), (length (heap s) + 1),
        (length (fig_axes s)), (target_failed_state s na nb).
      split; [by apply before_target_plot_run with X|].
      destruct (Hxa (target_failed_state s na nb) eq_refl) as (_ & Hxb & _ & Hb').
      by apply plot_raises_here
        with (np.arange_value nb) B (length (fig_axes s)). }
    destruct (pl.plot_args_error A (np.arange_value na)) as [e2|] eqn:EA.
    { right. rewrite Hr in He |- *. injection He as <-.
      exists na, nb, (length (heap s)), (length (heap s) + 1),
        (length (fig_axes s)), (length (fig_axes s) + 1),
        (source_failed_state s b B t na nb).
      split; [by apply before_source_plot_run with X|].
      destruct (Hxa (source_failed_state s b B t na nb) eq_refl)
        as (Hxa' & _ & Ha' & _).
      by apply plot_raises_here
        with A (np.arange_value na) (length (fig_axes s) + 1). }
    rewrite Hspec in He. discriminate He.
  - intros la lb HA HB Hne.
    destruct (Nat.eqb_spec lb nb) as [->|Hnb].
    + assert (Hla : la <> na) by (by destruct Hne).
      rewrite (plot_args_index_l nb B HB) in Hr.
      rewrite (first_dimension_differs A (np.arange_value na) la na HA eq_refl Hla)
        in Hr.
      by rewrite Hr.
    + assert (Hlb : nb <> lb) by congruence.
      rewrite (first_dimension_differs (np.arange_value nb) B nb lb eq_refl HB Hlb)
        in Hr.
      by rewrite Hr.
Qed.

(** ** The arguments are left as they were *)

Lemma grows_ret {A} (x : A) : heap_grows (ret x).
Proof. intros s. exists []. by rewrite app_nil_r. Qed.

Lemma grows_raise {A} (e : exn) : heap_grows (@raise A e).
Proof. intros s. exists []. by rewrite app_nil_r. Qed.

Lemma grows_gets {A} (f : state -> A) : heap_grows (gets f).
Proof. intros s. exists []. by rewrite app_nil_r. Qed.

Lemma grows_modify (f : state -> state) :
  (forall s, heap (f s) = heap s) -> heap_grows (modify f).
Proof. intros Hf s. exists []. cbn. by rewrite Hf, app_nil_r. Qed.

Lemma grows_bind {A B} (m : Py A) (k : A -> Py B) :
  heap_grows m -> (forall x, heap_grows (k x)) -> heap_grows (bind m k).
Proof.
  intros Hm Hk s. unfold bind.
  destruct (Hm s) as [k1 H1]. destruct (m s) as [[e|x] s1]; cbn in *.
  - by exists k1.
  - destruct (Hk x s1) as [k2 H2]. exists (k1 ++ k2).
    by rewrite H2, H1, app_assoc.
Qed.

Lemma grows_arange (n : nat) : heap_grows (np.arange n).
Proof. intros s. by exists [np.arange_value n]. Qed.

Lemma grows_shape_of (r : ref) : heap_grows (np.shape_of r).
Proof.
  intros s. exists []. unfold np.shape_of.
  destruct (heap s !! r); by rewrite app_nil_r.
Qed.

Lemma grows_unpack2 (l : list nat) : heap_grows (unpack2 l).
Proof.
  destruct l as [|? [|? [|? ?]]]; cbn; auto using grows_ret, @grows_raise.
Qed.

Lemma grows_getitem (gs : GridSpec) (k1 k2 : key) : heap_grows (getitem gs k1 k2).
Proof.
  unfold getitem.
  destruct (normalize k1 (nrows gs)), (normalize k2 (ncols gs));
    auto using @grows_ret, @grows_raise.
Qed.

Lemma grows_get_axes (h : nat) : heap_grows (pl.get_axes h).
Proof.
  intros s. exists []. unfold pl.get_axes.
  destruct (fig_axes s !! h); by rewrite app_nil_r.
Qed.

Lemma grows_get_array (r : ref) : heap_grows (pl.get_array r).
Proof.
  intros s. exists []. unfold pl.get_array.
  destruct (heap s !! r); by rewrite app_nil_r.
Qed.

Lemma grows_new_axis : heap_grows pl.new_axis.
Proof. intros s. exists []. cbn. by rewrite app_nil_r. Qed.

Lemma grows_update_axes (h : nat) (f : Axes -> Axes) :
  heap_grows (pl.update_axes h f).
Proof. by apply grows_modify. Qed.

Lemma grows_update_axis (h : nat) (f : axis -> axis) :
  heap_grows (pl.update_axis h f).
Proof. by apply grows_modify. Qed.

Create HintDb frame.
#[local] Hint Resolve grows_ret grows_raise grows_gets grows_bind grows_arange
  grows_shape_of grows_unpack2 grows_getitem grows_get_axes grows_get_array
  grows_new_axis grows_update_axes grows_update_axis : frame.

Ltac frame :=
  repeat first [ solve [auto with frame] | apply grows_bind; [|intros ?] ].

Lemma grows_shared_or_new (share : option nat) (which : Axes -> nat) :
  heap_grows (pl.shared_or_new share which).
Proof. destruct share; cbn; frame. Qed.

Lemma grows_subplot (sp : SubplotSpec) (sharex sharey : option nat) :
  heap_grows (pl.subplot sp sharex sharey).
Proof.
  unfold pl.subplot.
  repeat first [ solve [auto using grows_shared_or_new, grows_modify with frame]
               | apply grows_bind; [|intros ?] ].
Qed.

Lemma grows_gca : heap_grows pl.gca.
Proof.
  unfold pl.gca. apply grows_bind; [frame|].
  intros [h|]; auto using grows_subplot with frame.
Qed.

#[local] Hint Resolve grows_subplot grows_gca : frame.

Lemma grows_plot (x y : ref) (f l : string) : heap_grows (pl.plot x y f l).
Proof.
  unfold pl.plot. frame.
  destruct (pl.plot_args_error _ _); frame.
Qed.

Lemma grows_show (h : nat) (X : ref) (i : string) (r : nat) :
  heap_grows (pl.show h X i r).
Proof. unfold pl.show. frame. Qed.

#[local] Hint Resolve grows_show : frame.

Lemma grows_imshow (X : ref) (i : string) : heap_grows (pl.imshow X i).
Proof.
  unfold pl.imshow. frame.
  repeat case_match; frame.
Qed.

Lemma grows_tight_layout : heap_grows pl.tight_layout.
Proof. by apply grows_modify. Qed.

Lemma grows_subplots_adjust (w h : Q) : heap_grows (pl.subplots_adjust w h).
Proof. by apply grows_modify. Qed.

#[local] Hint Resolve grows_plot grows_imshow grows_tight_layout
  grows_subplots_adjust : frame.

Lemma grows_plot1D_mat (a b M : ref) (t : string) :
  heap_grows (plot1D_mat a b M t).
Proof.
  unfold plot1D_mat, pl.yticks, pl.xticks, pl.title, pl.invert_xaxis,
    pl.invert_yaxis, pl.axis_off, pl.xlim.
  frame.
Qed.

(** C8: no call, returning or raising, changes the source array, the
    target array or the matrix (the title is a string, a value that
    cannot change), and a call that returns returns None. *)
Theorem inputs_unchanged (s : state) (a b M : ref) (t : string)
    (A B X : ndarray) :
  heap s !! a = Some A -> heap s !! b = Some B -> heap s !! M = Some X ->
  heap (snd (plot1D_mat a b M t s)) !! a = Some A /\
  heap (snd (plot1D_mat a b M t s)) !! b = Some B /\
  heap (snd (plot1D_mat a b M t s)) !! M = Some X /\
  (forall v, fst (plot1D_mat a b M t s) = inr v -> v = tt).
Proof.
  intros Ha Hb HM.
  destruct (grows_plot1D_mat a b M t s) as [k ->].
  repeat split; try by apply lookup_app_l_Some.
  by intros [].
Qed.

(** ** Calls that raise, and what they leave *)

(** X1: a matrix that is not two-dimensional makes the unpacking of
    [M.shape] raise a ValueError before anything is allocated or drawn:
    the state is left exactly as it was. *)
Theorem matrix_not_2D_raises (s : state) (a b M : ref) (t : string)
    (X : ndarray) :
  heap s !! M = Some X -> length (shape X) <> 2 ->
  exists msg, plot1D_mat a b M t s = (inl (ValueError msg), s).
Proof.
  intros HM Hnd. exact (unpack_shape_raises s a b M t X HM Hnd).
Qed.

(** X2: when the target does not have the matrix's column count, the call
    raises at the plot of the target.  It has by then added one region,
    the top one, which stays in the figure as the current region, empty
    and without the title; the layout is untouched.  This holds whatever
    the source array is. *)
Theorem target_mismatch_leaves_top (s : state) (a b M : ref) (t : string)
    (A B X : ndarray) (na nb lb : nat) :
  heap s !! a = Some A -> heap s !! b = Some B -> heap s !! M = Some X ->
  shape X = [na; nb] -> shape B = [lb] -> lb <> nb ->
  exists top : Axes,
    fst (plot1D_mat a b M t s) =
      inl (pl.first_dimension_error (np.arange_value nb) B) /\
    fig_axes (snd (plot1D_mat a b M t s)) = fig_axes s ++ [top] /\
    spec top = mk_SubplotSpec (3, 3) [0] [1; 2] /\
    lines top = [] /\
    ax_title top = "" /\
    current (snd (plot1D_mat a b M t s)) = Some (length (fig_axes s)) /\
    fig_layout (snd (plot1D_mat a b M t s)) = fig_layout s.
Proof.
  intros Ha Hb HM HX HB Hne.
  pose proof (plot1D_mat_raises_spec s a b M t A B X na nb Ha Hb HM HX) as Hspec.
  assert (Hnb : nb <> lb) by congruence.
  rewrite (first_dimension_differs (np.arange_value nb) B nb lb eq_refl HB Hnb)
    in Hspec.
  rewrite Hspec. exists (empty_top s). by repeat split.
Qed.

(** X3: when the target fits and the source does not have the matrix's
    row count, the call raises at the plot of the source.  The top region
    is then complete (its curve and the title), the left region has been
    added and is current but is empty and its axes are not inverted, and
    there is no heatmap. *)
Theorem source_mismatch_leaves_two (s : state) (a b M : ref) (t : string)
    (A B X : ndarray) (na nb la : nat) :
  heap s !! a = Some A -> heap s !! b = Some B -> heap s !! M = Some X ->
  shape X = [na; nb] -> shape B = [nb] -> shape A = [la] -> la <> na ->
  exists top left : Axes,
    fst (plot1D_mat a b M t s) =
      inl (pl.first_dimension_error A (np.arange_value na)) /\
    fig_axes (snd (plot1D_mat a b M t s)) = fig_axes s ++ [top; left] /\
    length (lines top) = 1 /\
    ax_title top = t /\
    lines left = [] /\
    xaxis_inverted (snd (plot1D_mat a b M t s)) left = Some false /\
    yaxis_inverted (snd (plot1D_mat a b M t s)) left = Some false /\
    current (snd (plot1D_mat a b M t s)) = Some (length (fig_axes s) + 1).
Proof.
  intros Ha Hb HM HX HB HA Hne.
  pose proof (plot1D_mat_raises_spec s a b M t A B X na nb Ha Hb HM HX) as Hspec.
  rewrite (plot_args_index_l nb B HB) in Hspec.
  rewrite (first_dimension_differs A (np.arange_value na) la na HA eq_refl Hne)
    in Hspec.
  rewrite Hspec.
  exists (final_top s b B nb t), (empty_left s).
  do 2 (split; [reflexivity|]).
  split.
  { cbn [final_top lines]. unfold target_curves.
    by rewrite (plot_lines_1d _ _ _ _ _ _ nb nb). }
  do 2 (split; [reflexivity|]).
  unfold xaxis_inverted, yaxis_inverted, source_failed_state.
  cbn [snd axis_store empty_left xaxis yaxis current].
  by rewrite !lookup_app_length_add.
Qed.

(** ** More of the figure after a call that returned *)

Section drawn.
Variables (s s' : state) (a b M : ref) (t : string).
Variables (A B X : ndarray) (na nb : nat).
Hypothesis Ha : heap s !! a = Some A.
Hypothesis Hb : heap s !! b = Some B.
Hypothesis HM : heap s !! M = Some X.
Hypothesis HX : shape X = [na; nb].
Hypothesis Hrun : plot1D_mat a b M t s = (inr tt, s').

Lemma drawn_final : s' = final_state s a b M t A B na nb.
Proof. exact (plot1D_mat_returns s s' a b M t A B X na nb tt Ha Hb HM HX Hrun). Qed.

(** X4: with a 1D source and a 1D target, the top region holds exactly
    one curve, the target against the indices 0, ..., nb-1 (format 'r'),
    and the left region exactly one curve with the axes swapped: the
    source values on x against the indices 0, ..., na-1 on y (format
    'b'). *)
Theorem marginal_curves :
  shape A = [na] -> shape B = [nb] ->
  exists (top left : Axes) (ct cs : Line2D) (xb xa : ndarray),
    top_marginal s s' = Some top /\ lines top = [ct] /\
    left_marginal s s' = Some left /\ lines left = [cs] /\
    ydata ct = b /\ heap s' !! xdata ct = Some xb /\
    xdata cs = a /\ heap s' !! ydata cs = Some xa /\
    is_index_array nb xb /\ is_index_array na xa /\
    fmt ct = "r" /\ label ct = "Target distribution" /\
    fmt cs = "b" /\ label cs = "Source distribution".
Proof.
  intros HA HB. rewrite drawn_final.
  exists (final_top s b B nb t), (final_left s a A na),
    (mk_Line2D (length (heap s) + 1) 0 b 0 "r" "Target distribution"),
    (mk_Line2D a 0 (length (heap s)) 0 "b" "Source distribution"),
    (np.arange_value nb), (np.arange_value na).
  split; [apply final_top_marginal|].
  split.
  { cbn [final_top lines]. unfold target_curves.
    by rewrite (plot_lines_1d _ _ _ _ _ _ nb nb). }
  split; [apply final_left_marginal|].
  split.
  { cbn [final_left lines]. unfold source_curves.
    by rewrite (plot_lines_1d _ _ _ _ _ _ na na). }
  split; [reflexivity|].
  split; [unfold final_state; cbn [heap xdata]; by rewrite lookup_app_length_add|].
  split; [reflexivity|].
  split; [unfold final_state; cbn [heap ydata]; by rewrite lookup_app_length|].
  split; [apply arange_is_index_array|].
  split; [apply arange_is_index_array|].
  by repeat split.
Qed.

(** X5: the title is put on the top region only; the y ticks of the top
    region and the x ticks of the left region are suppressed, and the two
    axes the heatmap shares with the marginals keep their ticks. *)
Theorem titles_and_ticks :
  exists top left center : Axes,
    top_marginal s s' = Some top /\
    left_marginal s s' = Some left /\
    center_heatmap s s' = Some center /\
    ax_title top = t /\ ax_title left = "" /\ ax_title center = "" /\
    get_yticks s' top = Some (Some []) /\
    get_xticks s' left = Some (Some []) /\
    get_xticks s' center = Some None /\
    get_yticks s' center = Some None.
Proof.
  rewrite drawn_final.
  exists (final_top s b B nb t), (final_left s a A na), (final_center s M).
  split; [apply final_top_marginal|].
  split; [apply final_left_marginal|].
  split; [apply final_center_heatmap|].
  do 3 (split; [reflexivity|]).
  unfold get_xticks, get_yticks.
  cbn [final_top final_left final_center xaxis yaxis].
  by rewrite !final_axis_add, final_axis_0.
Qed.

(** X6: the heatmap region holds the matrix as its only image, with
    nearest-neighbour interpolation, and no curve; its decorations are
    off while those of the two marginals stay on, the marginals hold no
    image, and the heatmap is the current region after the call. *)
Theorem heatmap_contents :
  exists (top left center : Axes) (c : nat),
    top_marginal s s' = Some top /\
    left_marginal s s' = Some left /\
    center_heatmap s s' = Some center /\
    images center = [mk_AxesImage M "nearest"] /\ lines center = [] /\
    images top = [] /\ images left = [] /\
    axison center = false /\ axison top = true /\ axison left = true /\
    current s' = Some c /\ fig_axes s' !! c = Some center.
Proof.
  rewrite drawn_final.
  exists (final_top s b B nb t), (final_left s a A na), (final_center s M),
    (length (fig_axes s) + 2).
  split; [apply final_top_marginal|].
  split; [apply final_left_marginal|].
  split; [apply final_center_heatmap|].
  do 8 (split; [reflexivity|]).
  apply final_center_heatmap.
Qed.

(** X7: whatever the layout of the figure was, after the call it is the
    tight layout with no horizontal gap and a vertical gap of 0.2. *)
Theorem layout_after :
  fig_layout s' = mk_layout true (Some 0%Q) (Some (2 # 10)%Q).
Proof. by rewrite drawn_final. Qed.

(** X10: the three regions tile the 3x3 grid but for its top-left cell:
    no cell belongs to two regions, and together with cell (0, 0) their
    cells are all nine cells of the grid. *)
Theorem regions_tile_grid :
  exists top left center : Axes,
    fig_axes s' = fig_axes s ++ [top; left; center] /\
    NoDup (cells (spec top) ++ cells (spec left) ++ cells (spec center)) /\
    (0, 0) :: cells (spec top) ++ cells (spec left) ++ cells (spec center)
      ≡ₚ list_prod (seq 0 3) (seq 0 3).
Proof.
  rewrite drawn_final.
  exists (final_top s b B nb t), (final_left s a A na), (final_center s M).
  split; [reflexivity|]. split; compute_done.
Qed.

(** X11: the three regions use four distinct axis objects (the x and y
    axes of the top region and of the left region), and only the two axes
    of the left region are inverted: the axes of the top region and the
    x-axis of the heatmap keep their direction. *)
Theorem other_axes_not_inverted :
  exists top left center : Axes,
    top_marginal s s' = Some top /\
    left_marginal s s' = Some left /\
    center_heatmap s s' = Some center /\
    NoDup [xaxis top; yaxis top; xaxis left; yaxis left] /\
    xaxis_inverted s' top = Some false /\
    yaxis_inverted s' top = Some false /\
    xaxis_inverted s' center = Some false.
Proof.
  rewrite drawn_final.
  exists (final_top s b B nb t), (final_left s a A na), (final_center s M).
  split; [apply final_top_marginal|].
  split; [apply final_left_marginal|].
  split; [apply final_center_heatmap|].
  split.
  { cbn [final_top final_left xaxis yaxis].
    repeat (apply NoDup_cons; split;
            [rewrite ?elem_of_cons, elem_of_nil; lia|]).
    apply NoDup_nil_2. }
  unfold xaxis_inverted, yaxis_inverted.
  cbn [final_top final_center xaxis yaxis].
  by rewrite !final_axis_add, !final_axis_0.
Qed.
End drawn.

(** ** The scenarios *)

Example demo_returns : fst demo = inr tt.
Proof. vm_compute. reflexivity. Qed.

Example mismatch_raises :
  fst mismatch =
    inl (ValueError
           "x and y must have same first dimension, but have shapes (3,) and (4,)").
Proof. vm_compute. reflexivity. Qed.

Example target_mismatch_raises :
  fst target_mismatch =
    inl (ValueError
           "x and y must have same first dimension, but have shapes (2,) and (3,)").
Proof. vm_compute. reflexivity. Qed.

(** C5 needs a row: on a matrix of shape (0, 2) the call returns and
    the y-axis of the left marginal is not inverted. *)
Lemma left_yaxis_not_inverted_without_rows :
  fst no_rows = inr tt /\
  exists left : Axes,
    left_marginal (empty_figure no_rows_heap) (snd no_rows) = Some left /\
    yaxis_inverted (snd no_rows) left = Some false.
Proof. split; [by vm_compute|]. eexists. split; by vm_compute. Qed.

(** C9 needs a row: on a matrix of shape (0, 2) the call returns and
    the y-axis of the center heatmap is not inverted. *)
Lemma heatmap_yaxis_not_inverted_without_rows :
  fst no_rows = inr tt /\
  exists center : Axes,
    center_heatmap (empty_figure no_rows_heap) (snd no_rows) = Some center /\
    yaxis_inverted (snd no_rows) center = Some false.
Proof. split; [by vm_compute|]. eexists. split; by vm_compute. Qed.

(** C10 needs a column: on a matrix of shape (3, 0) the call returns
    and the x-limit of the top marginal is (-0.05, 0.05), not (0, 0). *)
Lemma top_xlim_without_columns :
  fst no_cols = inr tt /\
  exists top : Axes,
    top_marginal (empty_figure no_cols_heap) (snd no_cols) = Some top /\
    get_xlim (snd no_cols) top = Some (- (1 # 20), 1 # 20)%Q /\
    get_xlim (snd no_cols) top <> Some (0%Q, inject_Z (Z.of_nat 0)).
Proof.
  split; [by vm_compute|]. eexists.
  split; [by vm_compute|]. split; [by vm_compute|].
  vm_compute. discriminate.
Qed.

(** C7 needs a 2D matrix: on a matrix of shape (3,) the call raises a
    ValueError at the unpacking of line 24.  No backend call has been
    made: the figure is as it was, and the exception was raised neither
    at the plot of the target nor at the plot of the source. *)
Lemma flat_matrix_raises_before_backend :
  (exists msg, flat_matrix = (inl (ValueError msg), empty_figure demo_heap)) /\
  forall e,
    ~ raised_at_target_plot (empty_figure demo_heap) 1 0 e flat_matrix /\
    ~ raised_at_source_plot (empty_figure demo_heap) 0 1 0 "demo" e flat_matrix.
Proof.
  split; [eexists; by vm_compute|].
  intros e. split.
  - intros (na & nb & xa & xb & ax1 & s0 & H & _).
    vm_compute in H. discriminate H.
  - intros (na & nb & xa & xb & ax1 & ax2 & s0 & H & _).
    vm_compute in H. discriminate H.
Qed.

Lemma dims_from_matrix_shape_mismatch :
  heap (snd mismatch) = mismatch_heap ++ [np.arange_value 4; np.arange_value 2].
Proof.
  apply (dims_from_matrix_shape (empty_figure mismatch_heap) 0 1 2 "demo"
           demo_source demo_target tall_matrix 4 2); reflexivity.
Defined.

Lemma regions_share_axes_demo :
  exists top left center : Axes,
    top_marginal (empty_figure demo_heap) (snd demo) = Some top /\
    left_marginal (empty_figure demo_heap) (snd demo) = Some left /\
    center_heatmap (empty_figure demo_heap) (snd demo) = Some center /\
    xaxis top = xaxis center /\
    yaxis left = yaxis center /\
    is_Some (axis_store (snd demo) !! xaxis center) /\
    is_Some (axis_store (snd demo) !! yaxis center).
Proof.
  apply (regions_share_axes (empty_figure demo_heap) (snd demo) 0 1 2 "demo"
           demo_source demo_target demo_matrix 3 2); vm_compute; reflexivity.
Defined.

Lemma heatmap_xlim_demo :
  exists center : Axes,
    center_heatmap (empty_figure demo_heap) (snd demo) = Some center /\
    get_xlim (snd demo) center = Some (0%Q, inject_Z (Z.of_nat 2)).
Proof.
  apply (heatmap_xlim (empty_figure demo_heap) (snd demo) 0 1 2 "demo"
           demo_source demo_target demo_matrix 3 2);
    try (vm_compute; reflexivity); lia.
Defined.

Lemma left_marginal_inverted_demo :
  exists left : Axes,
    left_marginal (empty_figure demo_heap) (snd demo) = Some left /\
    xaxis_inverted (snd demo) left = Some true /\
    yaxis_inverted (snd demo) left = Some true.
Proof.
  apply (left_marginal_inverted (empty_figure demo_heap) (snd demo) 0 1 2 "demo"
           demo_source demo_target demo_matrix 3 2);
    try (vm_compute; reflexivity); lia.
Defined.

Lemma three_regions_demo :
  exists top left center : Axes,
    fig_axes (snd demo) = [top; left; center] /\
    spec top = mk_SubplotSpec (3, 3) [0] [1; 2] /\
    spec left = mk_SubplotSpec (3, 3) [1; 2] [0] /\
    spec center = mk_SubplotSpec (3, 3) [1; 2] [1; 2] /\
    top_marginal (empty_figure demo_heap) (snd demo) = Some top /\
    left_marginal (empty_figure demo_heap) (snd demo) = Some left /\
    center_heatmap (empty_figure demo_heap) (snd demo) = Some center.
Proof.
  apply (three_regions (empty_figure demo_heap) (snd demo) 0 1 2 "demo"
           demo_source demo_target demo_matrix 3 2);
    try (vm_compute; reflexivity); lia.
Defined.

Lemma errors_come_from_backend_mismatch :
  (forall e, fst mismatch = inl e ->
     raised_at_target_plot (empty_figure mismatch_heap) 1 2 e mismatch \/
     raised_at_source_plot (empty_figure mismatch_heap) 0 1 2 "demo" e mismatch) /\
  (forall la lb, shape demo_source = [la] -> shape demo_target = [lb] ->
     la <> 4 \/ lb <> 2 ->
     fst mismatch =
       inl (if lb =? 2
            then pl.first_dimension_error demo_source (np.arange_value 4)
            else pl.first_dimension_error (np.arange_value 2) demo_target)).
Proof.
  apply (errors_come_from_backend (empty_figure mismatch_heap) 0 1 2 "demo"
           demo_source demo_target tall_matrix 4 2); reflexivity.
Defined.

Lemma inputs_unchanged_demo :
  heap (snd demo) !! 0 = Some demo_source /\
  heap (snd demo) !! 1 = Some demo_target /\
  heap (snd demo) !! 2 = Some demo_matrix /\
  (forall v, fst demo = inr v -> v = tt).
Proof.
  apply (inputs_unchanged (empty_figure demo_heap) 0 1 2 "demo"
           demo_source demo_target demo_matrix); reflexivity.
Defined.

Lemma heatmap_yaxis_inverted_demo :
  exists (mid : state) (r : nat * nat * nat) (left center : Axes),
    before_heatmap 0 1 2 "demo" (empty_figure demo_heap) = (inr r, mid) /\
    heatmap_and_layout 2 r mid = (inr tt, snd demo) /\
    fig_axes mid =
      fig_axes (empty_figure demo_heap) ++
        [final_top (empty_figure demo_heap) 1 demo_target 2 "demo"; left] /\
    yaxis_inverted mid left = Some true /\
    left_marginal (empty_figure demo_heap) (snd demo) = Some left /\
    center_heatmap (empty_figure demo_heap) (snd demo) = Some center /\
    yaxis center = yaxis left /\
    yaxis_inverted (snd demo) left = Some true /\
    yaxis_inverted (snd demo) center = Some true /\
    images center = [mk_AxesImage 2 "nearest"].
Proof.
  apply (heatmap_yaxis_inverted (empty_figure demo_heap) (snd demo) 0 1 2 "demo"
           demo_source demo_target demo_matrix 3 2);
    try (vm_compute; reflexivity); lia.
Defined.

Lemma top_marginal_xlim_demo :
  exists top center : Axes,
    top_marginal (empty_figure demo_heap) (snd demo) = Some top /\
    center_heatmap (empty_figure demo_heap) (snd demo) = Some center /\
    xaxis top = xaxis center /\
    get_xlim (snd demo) top = Some (0%Q, inject_Z (Z.of_nat 2)) /\
    Forall (fun curve =>
              exists xb, heap (snd demo) !! xdata curve = Some xb /\
                         is_index_array 2 xb)
           (lines top).
Proof.
  apply (top_marginal_xlim (empty_figure demo_heap) (snd demo) 0 1 2 "demo"
           demo_source demo_target demo_matrix 3 2);
    try (vm_compute; reflexivity); lia.
Defined.

Lemma matrix_not_2D_raises_demo :
  exists msg, flat_matrix = (inl (ValueError msg), empty_figure demo_heap).
Proof.
  apply (matrix_not_2D_raises (empty_figure demo_heap) 0 1 0 "demo" demo_source);
    [reflexivity|cbn; lia].
Defined.

Lemma target_mismatch_leaves_top_demo :
  exists top : Axes,
    fst target_mismatch =
      inl (pl.first_dimension_error (np.arange_value 2) demo_source) /\
    fig_axes (snd target_mismatch) = fig_axes (empty_figure demo_heap) ++ [top] /\
    spec top = mk_SubplotSpec (3, 3) [0] [1; 2] /\
    lines top = [] /\
    ax_title top = "" /\
    current (snd target_mismatch) =
      Some (length (fig_axes (empty_figure demo_heap))) /\
    fig_layout (snd target_mismatch) = fig_layout (empty_figure demo_heap).
Proof.
  apply (target_mismatch_leaves_top (empty_figure demo_heap) 0 0 2 "demo"
           demo_source demo_source demo_matrix 3 2 3);
    try reflexivity; lia.
Defined.

Lemma source_mismatch_leaves_two_demo :
  exists top left : Axes,
    fst mismatch =
      inl (pl.first_dimension_error demo_source (np.arange_value 4)) /\
    fig_axes (snd mismatch) = fig_axes (empty_figure mismatch_heap) ++ [top; left] /\
    length (lines top) = 1 /\
    ax_title top = "demo" /\
    lines left = [] /\
    xaxis_inverted (snd mismatch) left = Some false /\
    yaxis_inverted (snd mismatch) left = Some false /\
    current (snd mismatch) =
      Some (length (fig_axes (empty_figure mismatch_heap)) + 1).
Proof.
  apply (source_mismatch_leaves_two (empty_figure mismatch_heap) 0 1 2 "demo"
           demo_source demo_target tall_matrix 4 2 3);
    try reflexivity; lia.
Defined.

Lemma marginal_curves_demo :
  exists (top left : Axes) (ct cs : Line2D) (xb xa : ndarray),
    top_marginal (empty_figure demo_heap) (snd demo) = Some top /\
    lines top = [ct] /\
    left_marginal (empty_figure demo_heap) (snd demo) = Some left /\
    lines left = [cs] /\
    ydata ct = 1 /\ heap (snd demo) !! xdata ct = Some xb /\
    xdata cs = 0 /\ heap (snd demo) !! ydata cs = Some xa /\
    is_index_array 2 xb /\ is_index_array 3 xa /\
    fmt ct = "r" /\ label ct = "Target distribution" /\
    fmt cs = "b" /\ label cs = "Source distribution".
Proof.
  apply (marginal_curves (empty_figure demo_heap) (snd demo) 0 1 2 "demo"
           demo_source demo_target demo_matrix 3 2); vm_compute; reflexivity.
Defined.

Lemma titles_and_ticks_demo :
  exists top left center : Axes,
    top_marginal (empty_figure demo_heap) (snd demo) = Some top /\
    left_marginal (empty_figure demo_heap) (snd demo) = Some left /\
    center_heatmap (empty_figure demo_heap) (snd demo) = Some center /\
    ax_title top = "demo" /\ ax_title left = "" /\ ax_title center = "" /\
    get_yticks (snd demo) top = Some (Some []) /\
    get_xticks (snd demo) left = Some (Some []) /\
    get_xticks (snd demo) center = Some None /\
    get_yticks (snd demo) center = Some None.
Proof.
  apply (titles_and_ticks (empty_figure demo_heap) (snd demo) 0 1 2 "demo"
           demo_source demo_target demo_matrix 3 2); vm_compute; reflexivity.
Defined.

Lemma heatmap_contents_demo :
  exists (top left center : Axes) (c : nat),
    top_marginal (empty_figure demo_heap) (snd demo) = Some top /\
    left_marginal (empty_figure demo_heap) (snd demo) = Some left /\
    center_heatmap (empty_figure demo_heap) (snd demo) = Some center /\
    images center = [mk_AxesImage 2 "nearest"] /\ lines center = [] /\
    images top = [] /\ images left = [] /\
    axison center = false /\ axison top = true /\ axison left = true /\
    current (snd demo) = Some c /\ fig_axes (snd demo) !! c = Some center.
Proof.
  apply (heatmap_contents (empty_figure demo_heap) (snd demo) 0 1 2 "demo"
           demo_source demo_target demo_matrix 3 2); vm_compute; reflexivity.
Defined.

Lemma layout_after_demo :
  fig_layout (snd demo) = mk_layout true (Some 0%Q) (Some (2 # 10)%Q).
Proof.
  apply (layout_after (empty_figure demo_heap) (snd demo) 0 1 2 "demo"
           demo_source demo_target demo_matrix 3 2); vm_compute; reflexivity.
Defined.

Lemma regions_tile_grid_demo :
  exists top left center : Axes,
    fig_axes (snd demo) =
      fig_axes (empty_figure demo_heap) ++ [top; left; center] /\
    NoDup (cells (spec top) ++ cells (spec left) ++ cells (spec center)) /\
    (0, 0) :: cells (spec top) ++ cells (spec left) ++ cells (spec center)
      ≡ₚ list_prod (seq 0 3) (seq 0 3).
Proof.
  apply (regions_tile_grid (empty_figure demo_heap) (snd demo) 0 1 2 "demo"
           demo_source demo_target demo_matrix 3 2); vm_compute; reflexivity.
Defined.

Lemma other_axes_not_inverted_demo :
  exists top left center : Axes,
    top_marginal (empty_figure demo_heap) (snd demo) = Some top /\
    left_marginal (empty_figure demo_heap) (snd demo) = Some left /\
    center_heatmap (empty_figure demo_heap) (snd demo) = Some center /\
    NoDup [xaxis top; yaxis top; xaxis left; yaxis left] /\
    xaxis_inverted (snd demo) top = Some false /\
    yaxis_inverted (snd demo) top = Some false /\
    xaxis_inverted (snd demo) center = Some false.
Proof.
  apply (other_axes_not_inverted (empty_figure demo_heap) (snd demo) 0 1 2 "demo"
           demo_source demo_target demo_matrix 3 2); vm_compute; reflexivity.
Defined.
